(** * pytest_raise_plugin: the exception relay of the Zentara debug helper

    A shallow embedding of
    [src/zentara_debug/src/debug_helper/pytest_raise_plugin.py] and the
    properties of its two pytest hooks.

    The module body and the hook bodies are Python statements that print to
    standard error, read the process environment, read attributes of
    objects handed in by pytest, and raise.  They are embedded as
    computations in a state-and-exception monad over a Python process state:
    an object heap addressed by object identity, the process environment,
    and the trace of observable events (environment reads and lines written
    to standard error). *)

From Stdlib Require Import ZArith.
From stdpp Require Import base option strings pretty list gmap.

Open Scope string_scope.
Open Scope list_scope.

(** ** Python values and objects *)

(** The identity of an object ([id(obj)]). *)
Definition loc := positive.
Bind Scope positive_scope with loc.

(** The values a name or an attribute can hold: the immediate values the
    plugin can meet, and references to heap objects. *)
Inductive value :=
  | VNone
  | VBool (b : bool)
  | VInt (n : Z)
  | VStr (s : string)
  | VRef (l : loc).

(** Heap objects.  A class carries its [__name__] and whether it derives
    from [BaseException]; an instance carries the identity of its class and
    its attribute dictionary. *)
Inductive pyobj :=
  | Class (name : string) (is_exc : bool)
  | Instance (cls : loc) (fields : gmap string value).

(** ** Process state *)

(** Observable events, in the order they happen. *)
Inductive event :=
  | EGetenv (key : string)        (* a call of os.getenv(key, ...) *)
  | EStderr (line : string).      (* print(line, file=sys.stderr) *)

Record state := State {
  st_heap : gmap loc pyobj;
  st_environ : gmap string string;   (* os.environ *)
  st_events : list event
}.

Definition emit_events (out : list event) (s : state) : state :=
  State (st_heap s) (st_environ s) (st_events s ++ out).

(** ** Exceptions and the monad of Python statements *)

(** What propagates from a [raise]: an object that already exists on the
    heap (raised by identity), or an exception object the interpreter
    creates on the spot: a built-in error such as [AttributeError], or a
    new instance of a class given to [raise]. *)
Inductive exn :=
  | Existing (l : loc)
  | Builtin (name : string)
  | InstanceOf (cls : loc).

Inductive result (A : Type) :=
  | Returned (a : A)
  | Raised (e : exn).
Arguments Returned {A} a.
Arguments Raised {A} e.

Definition M (A : Type) : Type := state → result A * state.

#[global] Instance M_ret : MRet M := λ A a s, (Returned a, s).

#[global] Instance M_bind : MBind M := λ A B k m s,
  match m s with
  | (Returned a, s') => k a s'
  | (Raised e, s') => (Raised e, s')
  end.

Definition throw {A} (e : exn) : M A := λ s, (Raised e, s).

(** [print(line, file=sys.stderr)] *)
Definition print_stderr (line : string) : M unit :=
  λ s, (Returned (), emit_events [EStderr line] s).

(** [os.getenv(key, dflt)] *)
Definition os_getenv (key dflt : string) : M string :=
  λ s, (Returned (default dflt (st_environ s !! key)),
        emit_events [EGetenv key] s).

(** The attribute [a] of [v], if it has one.  A class answers [__name__];
    an instance answers from its attribute dictionary; [None], booleans,
    integers and strings carry none of the attributes the plugin reads
    ([excinfo], [type], [value], [__name__]). *)
Definition attr (h : gmap loc pyobj) (v : value) (a : string) : option value :=
  match v with
  | VRef l =>
      match h !! l with
      | Some (Instance _ fields) => fields !! a
      | Some (Class name _) =>
          if String.eqb a "__name__" then Some (VStr name) else None
      | None => None
      end
  | _ => None
  end.

(** Attribute read [v.a]; a missing attribute is an [AttributeError]. *)
Definition getattr (v : value) (a : string) : M value := λ s,
  match attr (st_heap s) v a with
  | Some x => (Returned x, s)
  | None => (Raised (Builtin "AttributeError"), s)
  end.

(** Attribute assignment [v.a = x].  The plugin never assigns; the
    operation is part of the statement language so that not mutating is a
    property of the hooks rather than of the monad. *)
Definition setattr (v : value) (a : string) (x : value) : M unit := λ s,
  match v with
  | VRef l =>
      match st_heap s !! l with
      | Some (Instance c fields) =>
          (Returned (),
           State (<[l := Instance c (<[a := x]> fields)]> (st_heap s))
                 (st_environ s) (st_events s))
      | _ => (Raised (Builtin "AttributeError"), s)
      end
  | _ => (Raised (Builtin "AttributeError"), s)
  end.

(** Truth value of [v] in an [if]: [None], [False], [0] and the empty
    string are falsy; heap objects (which define neither [__bool__] nor
    [__len__] here) are truthy. *)
Definition truthy (v : value) : bool :=
  match v with
  | VNone => false
  | VBool b => b
  | VInt n => negb (n =? 0)%Z
  | VStr s => negb (String.eqb s "")
  | VRef _ => true
  end.

(** [format(v)] inside an f-string replacement field.  The text of a heap
    object (its [repr], which shows an address) is kept abstract; the hooks
    format a class [__name__], which is a string. *)
Definition format_value (v : value) : string :=
  match v with
  | VNone => "None"
  | VBool true => "True"
  | VBool false => "False"
  | VInt n => pretty n
  | VStr s => s
  | VRef _ => "<object>"
  end.

Definition is_exception_class (h : gmap loc pyobj) (c : loc) : bool :=
  match h !! c with
  | Some (Class _ is_exc) => is_exc
  | _ => false
  end.

(** What [raise v] propagates.  An instance of an exception class is
    raised as it is, by identity; an exception class is instantiated;
    anything else is a [TypeError] (exceptions must derive from
    BaseException). *)
Definition raised_by (h : gmap loc pyobj) (v : value) : exn :=
  match v with
  | VRef l =>
      match h !! l with
      | Some (Instance c _) =>
          if is_exception_class h c then Existing l else Builtin "TypeError"
      | Some (Class _ true) => InstanceOf l
      | _ => Builtin "TypeError"
      end
  | _ => Builtin "TypeError"
  end.

(** [raise v].  The traceback entry the interpreter records on the raised
    object while it propagates is part of raising and is not a heap write
    of the model. *)
Definition py_raise {A} (v : value) : M A :=
  λ s, (Raised (raised_by (st_heap s) v), s).

(** ** The hooks *)

(** A Python function, called with its positional arguments. *)
Definition pyfunc := list value → M value.

(** Lines 16-22. *)
Definition pytest_exception_interact : pyfunc := λ args,
  match args with
  | [node; call; report] =>
      print_stderr "_PYTEST_RAISE plugin: Intercepting exception interact hook.";;
      excinfo ← getattr call "excinfo";
      if truthy excinfo then
        excinfo ← getattr call "excinfo";
        type ← getattr excinfo "type";
        name ← getattr type "__name__";
        print_stderr ("_PYTEST_RAISE plugin: Re-raising exception: "
                        +:+ format_value name);;
        excinfo ← getattr call "excinfo";
        exc ← getattr excinfo "value";
        py_raise exc
      else
        mret (VBool false)
  | _ => throw (Builtin "TypeError")
  end.

(** Lines 25-29. *)
Definition pytest_internalerror : pyfunc := λ args,
  match args with
  | [excinfo] =>
      print_stderr "_PYTEST_RAISE plugin: Intercepting internal error hook.";;
      type ← getattr excinfo "type";
      name ← getattr type "__name__";
      print_stderr ("_PYTEST_RAISE plugin: Re-raising internal error: "
                      +:+ format_value name);;
      exc ← getattr excinfo "value";
      py_raise exc
  | _ => throw (Builtin "TypeError")
  end.

(** ** The module body *)

(** The options [pytest.hookimpl(...)] attaches to a function; every
    option not given is [False]. *)
Record hookimpl_opts := HookimplOpts {
  tryfirst : bool;
  trylast : bool;
  hookwrapper : bool;
  optionalhook : bool;
  wrapper : bool
}.

(** What a module-level name is bound to. *)
Inductive binding :=
  | BModule (name : string)
  | BFunc (impl : option hookimpl_opts) (f : pyfunc).

(** [@pytest.hookimpl(tryfirst=...)] applied to [def f]. *)
Definition hookimpl (first : bool) (f : pyfunc) : binding :=
  BFunc (Some (HookimplOpts first false false false false)) f.

(** Lines 5-45, executed in the module namespace [ns]. *)
Definition exec_module (ns : gmap string binding) : M (gmap string binding) :=
  let ns := <["os" := BModule "os"]> ns in
  let ns := <["sys" := BModule "sys"]> ns in
  let ns := <["pytest" := BModule "pytest"]> ns in
  print_stderr "_PYTEST_RAISE plugin: File execution started.";;
  shown ← os_getenv "_PYTEST_RAISE" "0";
  print_stderr ("_PYTEST_RAISE plugin: Checking _PYTEST_RAISE. Value: "
                  +:+ shown);;
  flag ← os_getenv "_PYTEST_RAISE" "0";
  if negb (String.eqb flag "0") then
    print_stderr "_PYTEST_RAISE plugin: Hooks activated (_PYTEST_RAISE is set).";;
    let ns := <["pytest_exception_interact" :=
                  hookimpl true pytest_exception_interact]> ns in
    let ns := <["pytest_internalerror" :=
                  hookimpl true pytest_internalerror]> ns in
    mret ns
  else
    print_stderr "_PYTEST_RAISE plugin: Loaded but hooks inactive (_PYTEST_RAISE not set).";;
    mret ns.

(** The namespace of the module after its first import into a process in
    state [s]. *)
Definition loaded_namespace (s : state) : option (gmap string binding) :=
  match exec_module ∅ s with
  | (Returned ns, _) => Some ns
  | (Raised _, _) => None
  end.

(** The function a name is bound to in a namespace, as pytest finds it by
    name. *)
Definition lookup_function (ns : gmap string binding) (name : string)
  : option pyfunc :=
  match ns !! name with
  | Some (BFunc _ f) => Some f
  | _ => None
  end.

(** The hook options a name carries in a namespace. *)
Definition lookup_hookimpl (ns : gmap string binding) (name : string)
  : option hookimpl_opts :=
  match ns !! name with
  | Some (BFunc impl _) => impl
  | _ => None
  end.

(** ** Vocabulary of the properties *)

(** The flag as the specification words it: [_PYTEST_RAISE] is set, to a
    value other than the literal string ["0"]. *)
Definition flag_active (env : gmap string string) : Prop :=
  match env !! "_PYTEST_RAISE" with
  | Some v => v ≠ "0"
  | None => False
  end.

#[global] Instance flag_active_dec env : Decision (flag_active env).
Proof. unfold flag_active. destruct (env !! "_PYTEST_RAISE"); apply _. Defined.

(** The environment reads among some events, and whether an event is a
    line on standard error. *)
Definition getenv_reads (evs : list event) : list string :=
  omap (λ e, match e with EGetenv k => Some k | EStderr _ => None end) evs.

Definition is_stderr (e : event) : bool :=
  match e with
  | EStderr _ => true
  | EGetenv _ => false
  end.

(** pytest's [ExceptionInfo]: [v] refers to an instance whose [type] is an
    exception class and whose [value] is an instance of that class.
    Answers the wrapped exception object and the name of its class. *)
Definition exception_info (h : gmap loc pyobj) (v : value)
  : option (loc * string) :=
  match attr h v "type", attr h v "value" with
  | Some (VRef t), Some (VRef e) =>
      match h !! t, h !! e with
      | Some (Class name true), Some (Instance c _) =>
          if decide (c = t) then Some (e, name) else None
      | _, _ => None
      end
  | _, _ => None
  end.

(** The objects the exception-interaction hook can reach from its call
    record: the record, its [excinfo], and behind that the [type], the
    [value] and the class of the [value]. *)
Definition call_footprint (h : gmap loc pyobj) (call : value) : list loc :=
  match call with VRef l => [l] | _ => [] end ++
  match attr h call "excinfo" with
  | Some (VRef ei) =>
      ei ::
      match attr h (VRef ei) "type" with Some (VRef t) => [t] | _ => [] end ++
      match attr h (VRef ei) "value" with
      | Some (VRef e) =>
          e :: match h !! e with Some (Instance c _) => [c] | _ => [] end
      | _ => []
      end
  | _ => []
  end.

(** The namespace [ns] once the three imports are bound, and once the two
    hooks are bound on top of them. *)
Definition with_imports (ns : gmap string binding) : gmap string binding :=
  <["pytest" := BModule "pytest"]>
    (<["sys" := BModule "sys"]> (<["os" := BModule "os"]> ns)).

Definition with_hooks (ns : gmap string binding) : gmap string binding :=
  <["pytest_internalerror" := hookimpl true pytest_internalerror]>
    (<["pytest_exception_interact" := hookimpl true pytest_exception_interact]>
       (with_imports ns)).

(** What the module body emits, given the value [os.getenv] answered. *)
Definition load_events (flag : string) : list event :=
  [ EStderr "_PYTEST_RAISE plugin: File execution started.";
    EGetenv "_PYTEST_RAISE";
    EStderr ("_PYTEST_RAISE plugin: Checking _PYTEST_RAISE. Value: " +:+ flag);
    EGetenv "_PYTEST_RAISE";
    EStderr (if String.eqb flag "0"
             then "_PYTEST_RAISE plugin: Loaded but hooks inactive (_PYTEST_RAISE not set)."
             else "_PYTEST_RAISE plugin: Hooks activated (_PYTEST_RAISE is set).") ].

(** Two heaps hold the same object at every listed identity. *)
Definition agree_on (ls : list loc) (h1 h2 : gmap loc pyobj) : Prop :=
  Forall (λ l, h2 !! l = h1 !! l) ls.

(** A computation that observes: its result and its output are determined
    by the heap alone, it leaves the heap and the environment as they were,
    and all it emits are lines on standard error. *)
Definition observer {A} (m : M A) : Prop :=
  ∀ h, ∃ r out,
    forallb is_stderr out = true ∧
    ∀ env evs, m (State h env evs) = (r, State h env (evs ++ out)).

(** ** A sample process *)

Module Sample.
Local Open Scope positive_scope.

(** A heap as pytest leaves it after a test raised [ValueError("boom")]:
    the exception (2) of class [ValueError] (1), the [ExceptionInfo] (3)
    wrapping it, the [CallInfo] of the failed call (5), the [CallInfo] of
    a call that raised nothing (7), two test items (9, 10) and two
    reports (12, 13). *)
Definition heap : gmap loc pyobj :=
  list_to_map [
    (1, Class "ValueError" true);
    (2, Instance 1 (list_to_map [("args", VStr "boom")]));
    (3, Instance 4 (list_to_map [("type", VRef 1); ("value", VRef 2)]));
    (4, Class "ExceptionInfo" false);
    (5, Instance 6 (list_to_map [("excinfo", VRef 3); ("when", VStr "call")]));
    (6, Class "CallInfo" false);
    (7, Instance 6 (list_to_map [("excinfo", VNone); ("when", VStr "call")]));
    (8, Class "Function" false);
    (9, Instance 8 (list_to_map [("name", VStr "test_a")]));
    (10, Instance 8 (list_to_map [("name", VStr "test_b")]));
    (11, Class "TestReport" false);
    (12, Instance 11 (list_to_map [("outcome", VStr "failed")]));
    (13, Instance 11 (list_to_map [("outcome", VStr "passed")]))
  ].

(** The same heap after the first report was rewritten. *)
Definition heap' : gmap loc pyobj :=
  <[12 := Instance 11 (list_to_map [("outcome", VStr "rerun")])]> heap.

Definition env_on : gmap string string := {["_PYTEST_RAISE" := "1"]}.
Definition env_off : gmap string string := {["_PYTEST_RAISE" := "0"]}.

Definition started : state := State heap env_on [].
Definition running : state := State heap env_on [EStderr "collected 1 item"].
Definition running' : state := State heap' env_off [].
End Sample.


(** The names the module body binds. *)
Definition module_names : list string :=
  ["os"; "sys"; "pytest"; "pytest_exception_interact"; "pytest_internalerror"].

(** ** A process with ill-formed error information *)

Module Malformed.
Local Open Scope positive_scope.

(** The sample heap with three more objects: error information whose
    [type] was never filled in (14), error information whose [value] is a
    string rather than an exception (15), and a call record with no
    [excinfo] attribute at all (16). *)
Definition heap : gmap loc pyobj :=
  <[14 := Instance 4 (list_to_map [("value", VRef 2)])]>
  (<[15 := Instance 4 (list_to_map [("type", VRef 1); ("value", VStr "boom")])]>
  (<[16 := Instance 6 (list_to_map [("when", VStr "call")])]> Sample.heap)).

Definition running : state := State heap Sample.env_on [].

(** A later state of the process in which the flag was turned off and
    another variable was set. *)
Definition flag_off : state :=
  State heap (<["PATH" := "/usr/bin"]> Sample.env_off) [].

(** A state with the flag still on and another variable set. *)
Definition other_env : state :=
  State Sample.heap (<["PATH" := "/usr/bin"]> Sample.env_on)
        [EStderr "collected 1 item"].
End Malformed.

(** * Properties *)

(** ** Running the monad *)

Lemma run_bind {A B} (m : M A) (k : A → M B) s :
  (m ≫= k) s =
  match m s with
  | (Returned a, s') => k a s'
  | (Raised e, s') => (Raised e, s')
  end.
Proof. reflexivity. Qed.


Lemma emit_events_app out1 out2 s :
  emit_events out2 (emit_events out1 s) = emit_events (out1 ++ out2) s.
Proof. unfold emit_events. simpl. by rewrite app_assoc. Qed.

(** ** Observers compose *)

Section observers.
Context {A B : Type}.

Lemma observer_ret (a : A) : observer (mret a).
Proof.
  intros h. exists (Returned a), []. split; [done|].
  intros env evs. by rewrite app_nil_r.
Qed.

Lemma observer_throw (e : exn) : observer (@throw A e).
Proof.
  intros h. exists (Raised e), []. split; [done|].
  intros env evs. by rewrite app_nil_r.
Qed.

Lemma observer_raise (v : value) : observer (@py_raise A v).
Proof.
  intros h. exists (Raised (raised_by h v)), []. split; [done|].
  intros env evs. unfold py_raise. simpl. by rewrite app_nil_r.
Qed.

Lemma observer_bind (m : M A) (k : A → M B) :
  observer m → (∀ a, observer (k a)) → observer (m ≫= k).
Proof.
  intros Hm Hk h. destruct (Hm h) as (r & out & Hout & Hrun).
  destruct r as [a|e].
  - destruct (Hk a h) as (r' & out' & Hout' & Hrun').
    exists r', (out ++ out'). split.
    + rewrite forallb_app, Hout, Hout'. done.
    + intros env evs. rewrite run_bind, Hrun, Hrun'. by rewrite app_assoc.
  - exists (Raised e), out. split; [done|].
    intros env evs. by rewrite run_bind, Hrun.
Qed.
End observers.

Lemma observer_print line : observer (print_stderr line).
Proof. intros h. exists (Returned ()), [EStderr line]. split; done. Qed.

Lemma observer_getattr v a : observer (getattr v a).
Proof.
  intros h. destruct (attr h v a) as [x|] eqn:Hx.
  - exists (Returned x), []. split; [done|]. intros env evs.
    unfold getattr. simpl. by rewrite Hx, app_nil_r.
  - exists (Raised (Builtin "AttributeError")), []. split; [done|].
    intros env evs. unfold getattr. simpl. by rewrite Hx, app_nil_r.
Qed.

Create HintDb observer.
#[global] Hint Resolve observer_ret observer_throw observer_raise
  observer_print observer_getattr : observer.

Ltac observe :=
  repeat first
    [ apply observer_bind; [ | intros ? ]
    | match goal with |- observer (if ?b then _ else _) => destruct b end
    | solve [ auto with observer ] ].

Lemma observer_exception_interact args :
  observer (pytest_exception_interact args).
Proof.
  destruct args as [|node [|call [|report [|? ?]]]]; simpl; observe.
Qed.

Lemma observer_internalerror args : observer (pytest_internalerror args).
Proof. destruct args as [|excinfo [|? ?]]; simpl; observe. Qed.

(** What an observer does in a state, in terms of [emit_events]. *)
Lemma observer_run {A} (m : M A) s :
  observer m →
  ∃ r out, forallb is_stderr out = true ∧ m s = (r, emit_events out s).
Proof.
  intros Hm. destruct s as [h env evs].
  destruct (Hm h) as (r & out & Hout & Hrun). exists r, out. split; [done|].
  apply Hrun.
Qed.

(** Two runs of an observer on the same heap. *)
Lemma observer_run2 {A} (m : M A) s1 s2 :
  observer m → st_heap s1 = st_heap s2 →
  ∃ r out, forallb is_stderr out = true ∧
    m s1 = (r, emit_events out s1) ∧ m s2 = (r, emit_events out s2).
Proof.
  intros Hm Hh. destruct s1 as [h env1 evs1], s2 as [h2 env2 evs2].
  simpl in Hh. subst h2.
  destruct (Hm h) as (r & out & Hout & Hrun). exists r, out.
  split; [done|]. split; apply Hrun.
Qed.

Lemma is_stderr_no_getenv out :
  forallb is_stderr out = true → getenv_reads out = [].
Proof.
  induction out as [|[k|line] out IH]; simpl; intros H; [done|done|].
  by apply IH.
Qed.

(** ** The module body *)

Lemma flag_active_getenv env :
  flag_active env ↔
  String.eqb (default "0" (env !! "_PYTEST_RAISE")) "0" = false.
Proof.
  unfold flag_active. destruct (env !! "_PYTEST_RAISE") as [v|]; simpl.
  - destruct (String.eqb_spec v "0"); split; intros; congruence.
  - split; [done|discriminate].
Qed.

Lemma exec_module_run ns s :
  exec_module ns s =
  (Returned (if decide (flag_active (st_environ s))
             then with_hooks ns else with_imports ns),
   emit_events (load_events (default "0" (st_environ s !! "_PYTEST_RAISE"))) s).
Proof.
  destruct s as [h env evs]. unfold exec_module, load_events, emit_events.
  do 4 (rewrite run_bind; unfold print_stderr, os_getenv, emit_events; simpl).
  destruct (decide (flag_active env)) as [Hon|Hoff].
  - apply flag_active_getenv in Hon. rewrite Hon. simpl.
    rewrite run_bind. simpl. by rewrite <- !app_assoc.
  - destruct (String.eqb (default "0" (env !! "_PYTEST_RAISE")) "0") eqn:E.
    + simpl. rewrite run_bind. simpl. by rewrite <- !app_assoc.
    + by apply flag_active_getenv in E.
Qed.

Lemma loaded_namespace_eq s :
  loaded_namespace s =
  Some (if decide (flag_active (st_environ s))
        then with_hooks ∅ else with_imports ∅).
Proof. unfold loaded_namespace. by rewrite exec_module_run. Qed.

Lemma lookup_function_with_imports name :
  lookup_function (with_imports ∅) name = None.
Proof.
  unfold lookup_function, with_imports.
  rewrite !lookup_insert. repeat case_decide; by simplify_map_eq.
Qed.

Lemma lookup_function_with_hooks name :
  lookup_function (with_hooks ∅) name =
  if decide (name = "pytest_internalerror") then Some pytest_internalerror
  else if decide (name = "pytest_exception_interact")
       then Some pytest_exception_interact
       else None.
Proof.
  unfold lookup_function, with_hooks.
  rewrite !lookup_insert. repeat case_decide; simplify_eq; try done.
  apply lookup_function_with_imports.
Qed.

(** The flag is inactive exactly when the variable is unset or is ["0"]. *)
Lemma flag_inactive_iff env :
  ¬ flag_active env ↔
  env !! "_PYTEST_RAISE" = None ∨ env !! "_PYTEST_RAISE" = Some "0".
Proof.
  unfold flag_active. destruct (env !! "_PYTEST_RAISE") as [v|].
  - split.
    + intros H. right. f_equal. by destruct (decide (v = "0")).
    + intros [H|H] Hv; congruence.
  - split; [by left|tauto].
Qed.

(** C2: after the module is loaded in a process state [s], the two hook
    functions are defined if and only if [_PYTEST_RAISE] is set in the
    environment of [s] to a value other than ["0"]; and a function is
    defined in the module only then and only under one of the two hook
    names; with the variable unset or ["0"], and only then, the module
    namespace holds nothing but the three imports. *)
Theorem hooks_defined_iff_flag_active s :
  ∃ ns, loaded_namespace s = Some ns ∧
    (is_Some (lookup_function ns "pytest_exception_interact") ∧
     is_Some (lookup_function ns "pytest_internalerror")
     ↔ flag_active (st_environ s)) ∧
    (∀ name, is_Some (lookup_function ns name) ↔
       flag_active (st_environ s) ∧
       (name = "pytest_exception_interact" ∨ name = "pytest_internalerror")) ∧
    (st_environ s !! "_PYTEST_RAISE" = None ∨
     st_environ s !! "_PYTEST_RAISE" = Some "0"
     ↔ ns = with_imports ∅).
Proof.
  rewrite loaded_namespace_eq.
  destruct (decide (flag_active (st_environ s))) as [Hon|Hoff];
    eexists; (split; [reflexivity|]).
  - split; [|split].
    3: { rewrite <- flag_inactive_iff. split; [done|]. intros Heq.
         pose proof (lookup_function_with_hooks "pytest_internalerror") as Hf.
         rewrite Heq, lookup_function_with_imports in Hf. done. }
    + rewrite !lookup_function_with_hooks. simpl. split; [done|].
      intros _. split; eexists; reflexivity.
    + intros name. rewrite lookup_function_with_hooks.
      repeat case_decide; subst; split;
        try (intros [? ?]; done); try (intros [_ [?|?]]; done); eauto.
  - split; [|split; [|by rewrite <- flag_inactive_iff]].
    + rewrite !lookup_function_with_imports. split; [|done].
      intros [[? ?] _]. done.
    + intros name. rewrite lookup_function_with_imports. split.
      * intros [? ?]. done.
      * intros [? _]. done.
Qed.

(** ** Priority of the hooks *)

(** C7: when the flag is active, both [pytest_exception_interact] and
    [pytest_internalerror] are bound in the loaded module with hook options
    whose [tryfirst] is set (and none of the other options). *)
Theorem hooks_declared_tryfirst s :
  flag_active (st_environ s) →
  ∃ ns, loaded_namespace s = Some ns ∧
    lookup_hookimpl ns "pytest_exception_interact"
      = Some (HookimplOpts true false false false false) ∧
    lookup_hookimpl ns "pytest_internalerror"
      = Some (HookimplOpts true false false false false) ∧
    ∀ name opts, lookup_hookimpl ns name = Some opts → tryfirst opts = true.
Proof.
  intros Hon. rewrite loaded_namespace_eq.
  rewrite (decide_True _ _ Hon). eexists. split; [reflexivity|].
  split; [reflexivity|]. split; [reflexivity|].
  intros name opts. unfold lookup_hookimpl, with_hooks, with_imports.
  rewrite !lookup_insert. repeat case_decide; simplify_map_eq; try done.
  all: intros; simplify_eq; done.
Qed.

Lemma hooks_declared_tryfirst_witness :
  ∃ ns, loaded_namespace Sample.started = Some ns ∧
    lookup_hookimpl ns "pytest_exception_interact"
      = Some (HookimplOpts true false false false false) ∧
    lookup_hookimpl ns "pytest_internalerror"
      = Some (HookimplOpts true false false false false) ∧
    ∀ name opts, lookup_hookimpl ns name = Some opts → tryfirst opts = true.
Proof. apply (hooks_declared_tryfirst Sample.started). vm_compute. done. Defined.

(** ** The hook bodies, run *)

Lemma bind_print {B} line (k : () → M B) s :
  (print_stderr line ≫= k) s = k () (emit_events [EStderr line] s).
Proof. reflexivity. Qed.

Lemma bind_getattr {B} v a (k : value → M B) s :
  (getattr v a ≫= k) s =
  match attr (st_heap s) v a with
  | Some x => k x s
  | None => (Raised (Builtin "AttributeError"), s)
  end.
Proof. rewrite run_bind. unfold getattr. by destruct (attr _ _ _). Qed.

Lemma heap_emit_events out s : st_heap (emit_events out s) = st_heap s.
Proof. reflexivity. Qed.

(** The exception-interaction hook, statement by statement. *)
Lemma exception_interact_run node call report s :
  pytest_exception_interact [node; call; report] s =
  let h := st_heap s in
  let line1 :=
    EStderr "_PYTEST_RAISE plugin: Intercepting exception interact hook." in
  let line2 name :=
    EStderr ("_PYTEST_RAISE plugin: Re-raising exception: "
               +:+ format_value name) in
  match attr h call "excinfo" with
  | None => (Raised (Builtin "AttributeError"), emit_events [line1] s)
  | Some excinfo =>
      if truthy excinfo then
        match attr h excinfo "type" with
        | None => (Raised (Builtin "AttributeError"), emit_events [line1] s)
        | Some type =>
            match attr h type "__name__" with
            | None => (Raised (Builtin "AttributeError"), emit_events [line1] s)
            | Some name =>
                match attr h excinfo "value" with
                | None => (Raised (Builtin "AttributeError"),
                           emit_events [line1; line2 name] s)
                | Some exc => (Raised (raised_by h exc),
                               emit_events [line1; line2 name] s)
                end
            end
        end
      else (Returned (VBool false), emit_events [line1] s)
  end.
Proof.
  unfold pytest_exception_interact. cbv zeta.
  rewrite bind_print, bind_getattr, heap_emit_events.
  destruct (attr (st_heap s) call "excinfo") as [excinfo|] eqn:Hcall; [|done].
  destruct (truthy excinfo); [|done].
  rewrite bind_getattr, heap_emit_events, Hcall.
  rewrite bind_getattr, heap_emit_events.
  destruct (attr (st_heap s) excinfo "type") as [type|]; [|done].
  rewrite bind_getattr, heap_emit_events.
  destruct (attr (st_heap s) type "__name__") as [name|]; [|done].
  rewrite bind_print, emit_events_app.
  rewrite bind_getattr, heap_emit_events, Hcall.
  rewrite bind_getattr, heap_emit_events.
  destruct (attr (st_heap s) excinfo "value") as [exc|]; done.
Qed.

(** The internal-error hook, statement by statement. *)
Lemma internalerror_run excinfo s :
  pytest_internalerror [excinfo] s =
  let h := st_heap s in
  let line1 :=
    EStderr "_PYTEST_RAISE plugin: Intercepting internal error hook." in
  let line2 name :=
    EStderr ("_PYTEST_RAISE plugin: Re-raising internal error: "
               +:+ format_value name) in
  match attr h excinfo "type" with
  | None => (Raised (Builtin "AttributeError"), emit_events [line1] s)
  | Some type =>
      match attr h type "__name__" with
      | None => (Raised (Builtin "AttributeError"), emit_events [line1] s)
      | Some name =>
          match attr h excinfo "value" with
          | None => (Raised (Builtin "AttributeError"),
                     emit_events [line1; line2 name] s)
          | Some exc => (Raised (raised_by h exc),
                         emit_events [line1; line2 name] s)
          end
      end
  end.
Proof.
  unfold pytest_internalerror. cbv zeta.
  rewrite bind_print, bind_getattr, heap_emit_events.
  destruct (attr (st_heap s) excinfo "type") as [type|]; [|done].
  rewrite bind_getattr, heap_emit_events.
  destruct (attr (st_heap s) type "__name__") as [name|]; [|done].
  rewrite bind_print, emit_events_app.
  rewrite bind_getattr, heap_emit_events.
  destruct (attr (st_heap s) excinfo "value") as [exc|]; done.
Qed.

(** What a well-formed [ExceptionInfo] answers to the reads of the hooks. *)
Lemma exception_info_reads h v e name :
  exception_info h v = Some (e, name) →
  truthy v = true ∧
  ∃ t, attr h v "type" = Some (VRef t) ∧
       attr h (VRef t) "__name__" = Some (VStr name) ∧
       attr h v "value" = Some (VRef e) ∧
       raised_by h (VRef e) = Existing e.
Proof.
  unfold exception_info. intros H.
  destruct (attr h v "type") as [[| | | |t]|] eqn:Ht; try done.
  destruct (attr h v "value") as [[| | | |e']|] eqn:He; try done.
  destruct (h !! t) as [[tn [|]|]|] eqn:Hcls; try done.
  destruct (h !! e') as [[|c fields]|] eqn:Hobj; try done.
  destruct (decide (c = t)) as [->|]; [|done]. simplify_eq.
  split.
  - destruct v; try done.
  - exists t. split; [done|]. split; [|split; [done|]].
    + simpl. by rewrite Hcls.
    + simpl. rewrite Hobj. unfold is_exception_class. by rewrite Hcls.
Qed.

(** The hook a loaded module binds under each of the two names. *)
Lemma loaded_hooks s :
  flag_active (st_environ s) →
  ∃ ns, loaded_namespace s = Some ns ∧
    lookup_function ns "pytest_exception_interact"
      = Some pytest_exception_interact ∧
    lookup_function ns "pytest_internalerror" = Some pytest_internalerror.
Proof.
  intros Hon. rewrite loaded_namespace_eq, (decide_True _ _ Hon).
  eexists. split; [reflexivity|]. by rewrite !lookup_function_with_hooks.
Qed.

(** Every function a loaded module binds is one of the two hooks. *)
Lemma loaded_function_inv s ns name f :
  loaded_namespace s = Some ns → lookup_function ns name = Some f →
  flag_active (st_environ s) ∧
  ((name = "pytest_exception_interact" ∧ f = pytest_exception_interact) ∨
   (name = "pytest_internalerror" ∧ f = pytest_internalerror)).
Proof.
  rewrite loaded_namespace_eq. intros Hns Hf. simplify_eq.
  destruct (decide (flag_active (st_environ s))) as [Hon|Hoff].
  - split; [done|]. rewrite lookup_function_with_hooks in Hf.
    repeat case_decide; simplify_eq; auto.
  - by rewrite lookup_function_with_imports in Hf.
Qed.

(** ** Re-raising the captured exception *)

(** C1: with the flag active, when the exception-interaction hook of the
    loaded module is called with a call record whose [excinfo] is an
    [ExceptionInfo] wrapping the exception object [e], it raises [e] itself
    (the very identity stored in [call.excinfo.value], not a new object),
    it returns no value to the host, and it leaves the heap as it was, so
    [e] still has the class it had; all it emits are its two diagnostic
    lines, the second naming that class. *)
Theorem exception_interact_reraises_captured s0 node call report s excinfo e name :
  flag_active (st_environ s0) →
  attr (st_heap s) call "excinfo" = Some excinfo →
  exception_info (st_heap s) excinfo = Some (e, name) →
  ∃ ns hook s',
    loaded_namespace s0 = Some ns ∧
    lookup_function ns "pytest_exception_interact" = Some hook ∧
    hook [node; call; report] s = (Raised (Existing e), s') ∧
    attr (st_heap s) excinfo "value" = Some (VRef e) ∧
    st_heap s' = st_heap s ∧
    s' = emit_events
           [EStderr "_PYTEST_RAISE plugin: Intercepting exception interact hook.";
            EStderr ("_PYTEST_RAISE plugin: Re-raising exception: " +:+ name)]
           s.
Proof.
  intros Hon Hcall Hinfo.
  destruct (loaded_hooks s0 Hon) as (ns & Hns & Hhook & _).
  destruct (exception_info_reads _ _ _ _ Hinfo)
    as (Htrue & t & Htype & Hname & Hvalue & Hraise).
  eexists ns, pytest_exception_interact, _.
  split; [done|]. split; [done|].
  rewrite exception_interact_run. cbv zeta.
  rewrite Hcall, Htrue, Htype, Hname, Hvalue, Hraise. simpl.
  done.
Qed.

Lemma exception_interact_reraises_captured_witness :
  ∃ ns hook s',
    loaded_namespace Sample.started = Some ns ∧
    lookup_function ns "pytest_exception_interact" = Some hook ∧
    hook [VRef 9; VRef 5; VRef 12] Sample.running
      = (Raised (Existing 2), s') ∧
    attr (st_heap Sample.running) (VRef 3) "value" = Some (VRef 2) ∧
    st_heap s' = st_heap Sample.running ∧
    s' = emit_events
           [EStderr "_PYTEST_RAISE plugin: Intercepting exception interact hook.";
            EStderr ("_PYTEST_RAISE plugin: Re-raising exception: " +:+ "ValueError")]
           Sample.running.
Proof.
  apply (exception_interact_reraises_captured
           Sample.started (VRef 9) (VRef 5) (VRef 12) Sample.running (VRef 3)).
  - vm_compute. done.
  - reflexivity.
  - reflexivity.
Defined.

(** C3: with the flag active, the internal-error hook of the loaded module
    never returns: whatever it is called with, the call ends in a raise.
    Called with an [ExceptionInfo] wrapping the error object [e], what it
    raises is [e] itself, after its two diagnostic lines; and it raises the
    same [e] in every state with the same heap, whatever the environment
    and the output so far. *)
Theorem internalerror_always_raises s0 excinfo s e name :
  flag_active (st_environ s0) →
  exception_info (st_heap s) excinfo = Some (e, name) →
  ∃ ns hook,
    loaded_namespace s0 = Some ns ∧
    lookup_function ns "pytest_internalerror" = Some hook ∧
    (∀ args s1, ∃ x s1', hook args s1 = (Raised x, s1')) ∧
    hook [excinfo] s =
      (Raised (Existing e),
       emit_events
         [EStderr "_PYTEST_RAISE plugin: Intercepting internal error hook.";
          EStderr ("_PYTEST_RAISE plugin: Re-raising internal error: " +:+ name)]
         s) ∧
    (∀ env evs,
       (hook [excinfo] (State (st_heap s) env evs)).1 = Raised (Existing e)).
Proof.
  intros Hon Hinfo.
  destruct (loaded_hooks s0 Hon) as (ns & Hns & _ & Hhook).
  destruct (exception_info_reads _ _ _ _ Hinfo)
    as (_ & t & Htype & Hname & Hvalue & Hraise).
  exists ns, pytest_internalerror. split; [done|]. split; [done|].
  split; [|split].
  - intros args s1. destruct args as [|x [|? ?]]; [by eexists _, _| |by eexists _, _].
    rewrite internalerror_run. cbv zeta.
    repeat case_match; by eexists _, _.
  - rewrite internalerror_run. cbv zeta.
    by rewrite Htype, Hname, Hvalue, Hraise.
  - intros env evs. rewrite internalerror_run. cbv zeta. simpl.
    by rewrite Htype, Hname, Hvalue, Hraise.
Qed.

Lemma internalerror_always_raises_witness :
  ∃ ns hook,
    loaded_namespace Sample.started = Some ns ∧
    lookup_function ns "pytest_internalerror" = Some hook ∧
    (∀ args s1, ∃ x s1', hook args s1 = (Raised x, s1')) ∧
    hook [VRef 3] Sample.running =
      (Raised (Existing 2),
       emit_events
         [EStderr "_PYTEST_RAISE plugin: Intercepting internal error hook.";
          EStderr ("_PYTEST_RAISE plugin: Re-raising internal error: "
                     +:+ "ValueError")]
         Sample.running) ∧
    (∀ env evs,
       (hook [VRef 3] (State (st_heap Sample.running) env evs)).1
         = Raised (Existing 2)).
Proof.
  apply (internalerror_always_raises Sample.started (VRef 3) Sample.running).
  - vm_compute. done.
  - reflexivity.
Defined.

(** ** The call that captured nothing *)

(** C4: with the flag active, when the exception-interaction hook of the
    loaded module is called with a call record whose [excinfo] is falsy
    ([None], or any other falsy value), it raises nothing and returns
    [False], a falsy value, after its one diagnostic line. *)
Theorem exception_interact_without_excinfo s0 node call report s excinfo :
  flag_active (st_environ s0) →
  attr (st_heap s) call "excinfo" = Some excinfo →
  truthy excinfo = false →
  ∃ ns hook,
    loaded_namespace s0 = Some ns ∧
    lookup_function ns "pytest_exception_interact" = Some hook ∧
    hook [node; call; report] s =
      (Returned (VBool false),
       emit_events
         [EStderr "_PYTEST_RAISE plugin: Intercepting exception interact hook."]
         s) ∧
    truthy (VBool false) = false.
Proof.
  intros Hon Hcall Hfalsy.
  destruct (loaded_hooks s0 Hon) as (ns & Hns & Hhook & _).
  exists ns, pytest_exception_interact. split; [done|]. split; [done|].
  split; [|done].
  rewrite exception_interact_run. cbv zeta. by rewrite Hcall, Hfalsy.
Qed.

Lemma exception_interact_without_excinfo_witness :
  ∃ ns hook,
    loaded_namespace Sample.started = Some ns ∧
    lookup_function ns "pytest_exception_interact" = Some hook ∧
    hook [VRef 10; VRef 7; VRef 13] Sample.running =
      (Returned (VBool false),
       emit_events
         [EStderr "_PYTEST_RAISE plugin: Intercepting exception interact hook."]
         Sample.running) ∧
    truthy (VBool false) = false.
Proof.
  apply (exception_interact_without_excinfo
           Sample.started (VRef 10) (VRef 7) (VRef 13) Sample.running VNone).
  - vm_compute. done.
  - reflexivity.
  - reflexivity.
Defined.

(** C10: whatever the exception-interaction hook of a loaded module is
    called with, and in whatever state, if the call returns a value then
    that value is [False]. *)
Theorem exception_interact_returns_only_False s0 ns hook args s v s' :
  loaded_namespace s0 = Some ns →
  lookup_function ns "pytest_exception_interact" = Some hook →
  hook args s = (Returned v, s') →
  v = VBool false.
Proof.
  intros Hns Hhook Hrun.
  destruct (loaded_function_inv _ _ _ _ Hns Hhook) as [_ [[_ ->]|[? _]]];
    [|done].
  destruct args as [|node [|call [|report [|? ?]]]]; try done.
  rewrite exception_interact_run in Hrun. cbv zeta in Hrun.
  repeat case_match; by simplify_eq.
Qed.

Lemma exception_interact_returns_only_False_witness :
  pytest_exception_interact [VRef 10; VRef 7; VRef 13] Sample.running
    = (Returned (VBool false),
       emit_events
         [EStderr "_PYTEST_RAISE plugin: Intercepting exception interact hook."]
         Sample.running) ∧
  VBool false = VBool false.
Proof.
  split; [reflexivity|].
  apply (exception_interact_returns_only_False
           Sample.started (with_hooks ∅) pytest_exception_interact
           [VRef 10; VRef 7; VRef 13] Sample.running (VBool false)
           (emit_events
              [EStderr "_PYTEST_RAISE plugin: Intercepting exception interact hook."]
              Sample.running)).
  - vm_compute. reflexivity.
  - reflexivity.
  - reflexivity.
Defined.

(** ** What the hooks leave alone *)

(** C6: neither hook changes the heap (so the node, the call record, the
    report and the excinfo object are after the call what they were before
    it) nor the environment; beyond the result (the raise, or the returned
    value) all a call does is append lines to standard error. *)
Theorem hooks_mutate_nothing args s :
  (∃ r s' out,
     pytest_exception_interact args s = (r, s') ∧
     st_heap s' = st_heap s ∧ st_environ s' = st_environ s ∧
     st_events s' = st_events s ++ out ∧ forallb is_stderr out = true) ∧
  (∃ r s' out,
     pytest_internalerror args s = (r, s') ∧
     st_heap s' = st_heap s ∧ st_environ s' = st_environ s ∧
     st_events s' = st_events s ++ out ∧ forallb is_stderr out = true).
Proof.
  split.
  - destruct (observer_run _ s (observer_exception_interact args))
      as (r & out & Hout & Hrun).
    by exists r, (emit_events out s), out.
  - destruct (observer_run _ s (observer_internalerror args))
      as (r & out & Hout & Hrun).
    by exists r, (emit_events out s), out.
Qed.

(** The frame property is one of the hooks, not of the monad: a function
    that assigns an attribute of its report does change the heap. *)
Example assignment_mutates :
  st_heap (setattr (VRef 12) "outcome" (VStr "rerun") Sample.running).2
    = Sample.heap' ∧
  Sample.heap' !! 12%positive ≠ Sample.heap !! 12%positive.
Proof. split; [reflexivity|]. vm_compute. discriminate. Qed.

(** ** The environment is read at load time only *)

(** C5, as stated, fails on the count: loading the module calls
    [os.getenv("_PYTEST_RAISE", ...)] twice (line 11 for the diagnostic
    line, line 12 for the test), not once. *)
Lemma module_load_reads_environment_twice :
  getenv_reads (st_events (exec_module ∅ Sample.started).2)
    = ["_PYTEST_RAISE"; "_PYTEST_RAISE"] ∧
  length (getenv_reads (st_events (exec_module ∅ Sample.started).2)) ≠ 1.
Proof. split; [reflexivity|]. vm_compute. discriminate. Qed.

(** C5, amended: loading the module reads [_PYTEST_RAISE] twice and reads
    nothing else of the environment; a hook of the loaded module reads the
    environment never, so a call in a state whose environment was replaced
    after the load gives the same result, the same output and the same
    heap as the call with the environment left alone. *)
Theorem environment_read_only_at_load s0 ns name hook args s env' :
  loaded_namespace s0 = Some ns →
  lookup_function ns name = Some hook →
  (∃ out, (exec_module ∅ s0).2 = emit_events out s0 ∧
          getenv_reads out = ["_PYTEST_RAISE"; "_PYTEST_RAISE"]) ∧
  ∃ r out,
    getenv_reads out = [] ∧
    hook args s = (r, emit_events out s) ∧
    hook args (State (st_heap s) env' (st_events s))
      = (r, emit_events out (State (st_heap s) env' (st_events s))).
Proof.
  intros Hns Hhook. split.
  - rewrite exec_module_run. eexists. split; [reflexivity|]. reflexivity.
  - assert (observer (hook args)) as Hobs.
    { destruct (loaded_function_inv _ _ _ _ Hns Hhook) as [_ [[_ ->]|[_ ->]]].
      - apply observer_exception_interact.
      - apply observer_internalerror. }
    destruct (observer_run2 _ s (State (st_heap s) env' (st_events s)) Hobs)
      as (r & out & Hout & Hrun1 & Hrun2); [done|].
    exists r, out. split; [by apply is_stderr_no_getenv|]. done.
Qed.

Lemma environment_read_only_at_load_witness :
  (∃ out, (exec_module ∅ Sample.started).2 = emit_events out Sample.started ∧
          getenv_reads out = ["_PYTEST_RAISE"; "_PYTEST_RAISE"]) ∧
  ∃ r out,
    getenv_reads out = [] ∧
    pytest_exception_interact [VRef 9; VRef 5; VRef 12] Sample.running
      = (r, emit_events out Sample.running) ∧
    pytest_exception_interact [VRef 9; VRef 5; VRef 12]
      (State (st_heap Sample.running) Sample.env_off (st_events Sample.running))
      = (r, emit_events out
              (State (st_heap Sample.running) Sample.env_off
                     (st_events Sample.running))).
Proof.
  apply (environment_read_only_at_load
           Sample.started (with_hooks ∅) "pytest_exception_interact"
           pytest_exception_interact [VRef 9; VRef 5; VRef 12]
           Sample.running Sample.env_off).
  - vm_compute. reflexivity.
  - reflexivity.
Defined.

(** ** Loading twice *)

Lemma with_imports_idemp ns : with_imports (with_imports ns) = with_imports ns.
Proof.
  apply map_eq. intros k. unfold with_imports.
  rewrite !lookup_insert. by repeat case_decide.
Qed.

Lemma with_hooks_idemp ns : with_hooks (with_hooks ns) = with_hooks ns.
Proof.
  apply map_eq. intros k. unfold with_hooks, with_imports.
  rewrite !lookup_insert. by repeat case_decide.
Qed.

(** C8: let the module be loaded once, giving the namespace [ns1], and
    then a second time in a later state of the same process (same
    environment), giving [ns2].  Whether the second load re-executes the
    module in its namespace or imports it afresh, the namespace is [ns1]
    again; so every hook found after the second load is the hook found
    after the first, and called with the same arguments on the same heap
    it gives the same result and the same output, whatever either load
    wrote to standard error before. *)
Theorem module_load_idempotent s0 ns1 s1 s1' ns2 s2 name hook args sa sb :
  exec_module ∅ s0 = (Returned ns1, s1) →
  st_environ s1' = st_environ s0 →
  exec_module ns1 s1' = (Returned ns2, s2) →
  lookup_function ns2 name = Some hook →
  st_heap sa = st_heap sb →
  ns2 = ns1 ∧
  (exec_module ∅ s1').1 = Returned ns1 ∧
  lookup_function ns1 name = Some hook ∧
  ∃ r out,
    hook args sa = (r, emit_events out sa) ∧
    hook args sb = (r, emit_events out sb).
Proof.
  intros H1 Henv H2 Hhook Hheap.
  rewrite exec_module_run in H1, H2. rewrite Henv in H2.
  assert (ns2 = ns1) as ->.
  { destruct (decide (flag_active (st_environ s0))); simplify_eq.
    - apply with_hooks_idemp.
    - apply with_imports_idemp. }
  split; [done|]. split; [|split; [done|]].
  - rewrite exec_module_run, Henv. simpl. by simplify_eq.
  - assert (loaded_namespace s0 = Some ns1) as Hns.
    { rewrite loaded_namespace_eq. by simplify_eq. }
    assert (observer (hook args)) as Hobs.
    { destruct (loaded_function_inv _ _ _ _ Hns Hhook) as [_ [[_ ->]|[_ ->]]].
      - apply observer_exception_interact.
      - apply observer_internalerror. }
    destruct (observer_run2 _ sa sb Hobs Hheap) as (r & out & _ & Hrun).
    by exists r, out.
Qed.

Lemma module_load_idempotent_witness :
  with_hooks ∅ = with_hooks ∅ ∧
  (exec_module ∅ (exec_module ∅ Sample.started).2).1
    = Returned (with_hooks ∅) ∧
  lookup_function (with_hooks ∅) "pytest_internalerror"
    = Some pytest_internalerror ∧
  ∃ r out,
    pytest_internalerror [VRef 3] (exec_module ∅ Sample.started).2
      = (r, emit_events out (exec_module ∅ Sample.started).2) ∧
    pytest_internalerror [VRef 3]
      (exec_module (with_hooks ∅) (exec_module ∅ Sample.started).2).2
      = (r, emit_events out
              (exec_module (with_hooks ∅) (exec_module ∅ Sample.started).2).2).
Proof.
  apply (module_load_idempotent
           Sample.started (with_hooks ∅) (exec_module ∅ Sample.started).2
           (exec_module ∅ Sample.started).2 (with_hooks ∅)
           (exec_module (with_hooks ∅) (exec_module ∅ Sample.started).2).2
           "pytest_internalerror" pytest_internalerror [VRef 3]).
  - vm_compute. reflexivity.
  - reflexivity.
  - vm_compute. reflexivity.
  - reflexivity.
  - reflexivity.
Defined.

(** ** The node and the report are never read *)

Lemma attr_agree h1 h2 l a :
  h2 !! l = h1 !! l → attr h2 (VRef l) a = attr h1 (VRef l) a.
Proof. unfold attr. by intros ->. Qed.

Lemma raised_by_agree h1 h2 l :
  h2 !! l = h1 !! l →
  (∀ c fields, h1 !! l = Some (Instance c fields) → h2 !! c = h1 !! c) →
  raised_by h2 (VRef l) = raised_by h1 (VRef l).
Proof.
  unfold raised_by. intros -> Hcls.
  destruct (h1 !! l) as [[|c fields]|] eqn:Hl; [done| |done].
  unfold is_exception_class. by rewrite (Hcls c fields).
Qed.

(** The reads of the exception-interaction hook stay inside the footprint
    of its call record. *)
Lemma exception_interact_reads_agree h1 h2 call :
  agree_on (call_footprint h1 call) h1 h2 →
  attr h2 call "excinfo" = attr h1 call "excinfo" ∧
  ∀ excinfo, attr h1 call "excinfo" = Some excinfo →
    attr h2 excinfo "type" = attr h1 excinfo "type" ∧
    attr h2 excinfo "value" = attr h1 excinfo "value" ∧
    (∀ type, attr h1 excinfo "type" = Some type →
       attr h2 type "__name__" = attr h1 type "__name__") ∧
    (∀ exc, attr h1 excinfo "value" = Some exc →
       raised_by h2 exc = raised_by h1 exc).
Proof.
  unfold agree_on, call_footprint. intros Hagree.
  apply Forall_app in Hagree as [Hcall Hrest].
  assert (∀ a, attr h2 call a = attr h1 call a) as Hc.
  { intros a. destruct call as [| | | |l]; try done.
    apply Forall_cons in Hcall as [Hl _]. by apply attr_agree. }
  split; [done|]. intros excinfo Hexcinfo. rewrite Hexcinfo in Hrest.
  destruct excinfo as [| | | |ei]; try done.
  apply Forall_cons in Hrest as [Hei Hrest].
  apply Forall_app in Hrest as [Htype Hvalue].
  split; [by apply attr_agree|]. split; [by apply attr_agree|]. split.
  - intros type Ht. rewrite Ht in Htype.
    destruct type as [| | | |t]; try done.
    apply Forall_cons in Htype as [Hlt _]. by apply attr_agree.
  - intros exc He. rewrite He in Hvalue.
    destruct exc as [| | | |e]; try done.
    apply Forall_cons in Hvalue as [Hle Hcls].
    apply raised_by_agree; [done|]. intros c fields Hobj.
    rewrite Hobj in Hcls. by apply Forall_cons in Hcls as [Hc' _].
Qed.

(** C9: two calls of the exception-interaction hook with the same call
    record give the same result and the same output, whatever the node and
    the report arguments are, whatever the rest of the heap holds (the node
    and report objects included), and whatever the environment and the
    output so far: it is enough that the two heaps hold the same objects at
    the call record and what the hook reaches from it. *)
Theorem exception_interact_ignores_node_and_report
    node1 report1 node2 report2 call s1 s2 :
  agree_on (call_footprint (st_heap s1) call) (st_heap s1) (st_heap s2) →
  ∃ r out,
    pytest_exception_interact [node1; call; report1] s1
      = (r, emit_events out s1) ∧
    pytest_exception_interact [node2; call; report2] s2
      = (r, emit_events out s2).
Proof.
  intros Hagree.
  destruct (exception_interact_reads_agree _ _ _ Hagree) as [Hcall Hreads].
  rewrite !exception_interact_run. cbv zeta. rewrite Hcall.
  destruct (attr (st_heap s1) call "excinfo") as [excinfo|] eqn:Hexcinfo;
    [|by eexists _, _].
  destruct (Hreads excinfo eq_refl) as (Htype & Hvalue & Hname & Hraise).
  destruct (truthy excinfo); [|by eexists _, _].
  rewrite Htype.
  destruct (attr (st_heap s1) excinfo "type") as [type|]; [|by eexists _, _].
  rewrite (Hname type eq_refl).
  destruct (attr (st_heap s1) type "__name__") as [name|]; [|by eexists _, _].
  rewrite Hvalue.
  destruct (attr (st_heap s1) excinfo "value") as [exc|]; [|by eexists _, _].
  rewrite (Hraise exc eq_refl). by eexists _, _.
Qed.

Lemma exception_interact_ignores_node_and_report_witness :
  ∃ r out,
    pytest_exception_interact [VRef 9; VRef 5; VRef 12] Sample.running
      = (r, emit_events out Sample.running) ∧
    pytest_exception_interact [VRef 10; VRef 5; VRef 13] Sample.running'
      = (r, emit_events out Sample.running').
Proof.
  apply (exception_interact_ignores_node_and_report
           (VRef 9) (VRef 12) (VRef 10) (VRef 13) (VRef 5)
           Sample.running Sample.running').
  vm_compute. repeat constructor.
Defined.

(** * Further properties of the hooks and of the module body *)

(** ** When the exception-interaction hook returns *)

(** X1: a call of the exception-interaction hook with three arguments
    returns a value, rather than raising, exactly when the call record has
    an [excinfo] attribute and that attribute is falsy. *)
Theorem exception_interact_returns_iff_falsy node call report s :
  (∃ v s', pytest_exception_interact [node; call; report] s = (Returned v, s'))
  ↔ (∃ excinfo, attr (st_heap s) call "excinfo" = Some excinfo ∧
                truthy excinfo = false).
Proof.
  rewrite exception_interact_run. cbv zeta.
  destruct (attr (st_heap s) call "excinfo") as [excinfo|].
  - destruct (truthy excinfo) eqn:Htruthy.
    + split.
      * intros (v & s' & Hrun). repeat case_match; simplify_eq.
      * intros (x & Hx & Hfalsy). simplify_eq. congruence.
    + split; [|by eexists _, _]. intros _. by exists excinfo.
  - split.
    + intros (v & s' & Hrun). simplify_eq.
    + intros (x & Hx & _). simplify_eq.
Qed.

(** ** The two hooks re-raise alike *)

(** X2: once the call record carries a truthy [excinfo], the
    exception-interaction hook ends as the internal-error hook does when it
    is handed that [excinfo]: the same object raised, or the same error, on
    the same unchanged heap. *)
Theorem hooks_reraise_alike node call report excinfo s :
  attr (st_heap s) call "excinfo" = Some excinfo →
  truthy excinfo = true →
  (pytest_exception_interact [node; call; report] s).1
    = (pytest_internalerror [excinfo] s).1 ∧
  st_heap (pytest_exception_interact [node; call; report] s).2
    = st_heap (pytest_internalerror [excinfo] s).2.
Proof.
  intros Hcall Htruthy.
  rewrite exception_interact_run, internalerror_run. cbv zeta.
  rewrite Hcall, Htruthy. by repeat case_match.
Qed.

Lemma hooks_reraise_alike_witness :
  (pytest_exception_interact [VRef 9; VRef 5; VRef 12] Sample.running).1
    = (pytest_internalerror [VRef 3] Sample.running).1 ∧
  st_heap (pytest_exception_interact [VRef 9; VRef 5; VRef 12] Sample.running).2
    = st_heap (pytest_internalerror [VRef 3] Sample.running).2.
Proof.
  apply (hooks_reraise_alike (VRef 9) (VRef 5) (VRef 12) (VRef 3)
           Sample.running); reflexivity.
Defined.

(** ** Exactly when the wrapped object is re-raised *)



(** X4: when the [type] of the argument, or the [__name__] of that type,
    cannot be read, the internal-error hook raises [AttributeError] after
    its first diagnostic line; the wrapped [value] is not raised, whatever
    it is. *)
Theorem internalerror_unreadable_type excinfo s :
  (attr (st_heap s) excinfo "type"
     ≫= λ type, attr (st_heap s) type "__name__") = None →
  pytest_internalerror [excinfo] s =
    (Raised (Builtin "AttributeError"),
     emit_events
       [EStderr "_PYTEST_RAISE plugin: Intercepting internal error hook."] s).
Proof.
  intros Hname. rewrite internalerror_run. cbv zeta.
  destruct (attr (st_heap s) excinfo "type") as [type|]; [|done].
  simpl in Hname. by rewrite Hname.
Qed.

Lemma internalerror_unreadable_type_witness :
  attr Malformed.heap (VRef 14) "value" = Some (VRef 2) ∧
  pytest_internalerror [VRef 14] Malformed.running =
    (Raised (Builtin "AttributeError"),
     emit_events
       [EStderr "_PYTEST_RAISE plugin: Intercepting internal error hook."]
       Malformed.running).
Proof.
  split; [reflexivity|].
  apply (internalerror_unreadable_type (VRef 14) Malformed.running).
  reflexivity.
Defined.

(** ** Everything the plugin emits bears its mark *)



(** ** What the load reports is what the load did *)


(** ** Executing the module body in a namespace that is not empty *)

Lemma with_imports_with_hooks ns :
  with_imports (with_hooks ns) = with_hooks ns.
Proof.
  apply map_eq. intros k. unfold with_hooks, with_imports.
  rewrite !lookup_insert. repeat case_decide; by simplify_eq.
Qed.

(** X7: turning the flag off and executing the module body again in its
    namespace does not take the hooks away: the body binds them when the
    flag is on and unbinds nothing when it is off, so both stay bound,
    still [tryfirst].  Only a fresh import with the flag off gives a module
    without hooks. *)
Theorem reload_with_flag_off_keeps_hooks s0 ns1 s1 s1' :
  flag_active (st_environ s0) →
  ¬ flag_active (st_environ s1') →
  exec_module ∅ s0 = (Returned ns1, s1) →
  (exec_module ns1 s1').1 = Returned ns1 ∧
  lookup_function ns1 "pytest_exception_interact"
    = Some pytest_exception_interact ∧
  lookup_function ns1 "pytest_internalerror" = Some pytest_internalerror ∧
  lookup_hookimpl ns1 "pytest_exception_interact"
    = Some (HookimplOpts true false false false false) ∧
  lookup_hookimpl ns1 "pytest_internalerror"
    = Some (HookimplOpts true false false false false) ∧
  (∃ fresh, (exec_module ∅ s1').1 = Returned fresh ∧
            ∀ name, lookup_function fresh name = None).
Proof.
  intros Hon Hoff Hload. rewrite exec_module_run in Hload.
  rewrite (decide_True _ _ Hon) in Hload. simplify_eq.
  rewrite !exec_module_run.
  destruct (decide (flag_active (st_environ s1'))) as [?|_]; [done|]. simpl.
  split; [by rewrite with_imports_with_hooks|].
  rewrite !lookup_function_with_hooks. simpl.
  split; [done|]. split; [done|]. split; [done|]. split; [done|].
  eexists. split; [reflexivity|]. apply lookup_function_with_imports.
Qed.

Lemma reload_with_flag_off_keeps_hooks_witness :
  (exec_module (with_hooks ∅) Malformed.flag_off).1 = Returned (with_hooks ∅) ∧
  lookup_function (with_hooks ∅) "pytest_exception_interact"
    = Some pytest_exception_interact ∧
  lookup_function (with_hooks ∅) "pytest_internalerror"
    = Some pytest_internalerror ∧
  lookup_hookimpl (with_hooks ∅) "pytest_exception_interact"
    = Some (HookimplOpts true false false false false) ∧
  lookup_hookimpl (with_hooks ∅) "pytest_internalerror"
    = Some (HookimplOpts true false false false false) ∧
  (∃ fresh, (exec_module ∅ Malformed.flag_off).1 = Returned fresh ∧
            ∀ name, lookup_function fresh name = None).
Proof.
  apply (reload_with_flag_off_keeps_hooks
           Sample.started (with_hooks ∅) (exec_module ∅ Sample.started).2
           Malformed.flag_off).
  - vm_compute. done.
  - vm_compute. intros H. by apply H.
  - vm_compute. reflexivity.
Defined.

(** X8: the load looks at nothing of the environment but [_PYTEST_RAISE]:
    executed in two states whose environments give that variable the same
    value (or both leave it unset), the module body binds the same names
    and emits the same events, whatever else the environments, the heaps
    and the earlier output hold; and it leaves heap and environment as they
    were. *)
Theorem load_depends_only_on_flag_variable ns s1 s2 :
  st_environ s1 !! "_PYTEST_RAISE" = st_environ s2 !! "_PYTEST_RAISE" →
  ∃ ns' out,
    exec_module ns s1 = (Returned ns', emit_events out s1) ∧
    exec_module ns s2 = (Returned ns', emit_events out s2).
Proof.
  intros Hflag. rewrite !exec_module_run, Hflag. eexists _, _.
  split; [|reflexivity]. f_equal. f_equal.
  assert (flag_active (st_environ s1) ↔ flag_active (st_environ s2)) as Hiff.
  { unfold flag_active. by rewrite Hflag. }
  destruct (decide (flag_active (st_environ s1)));
    destruct (decide (flag_active (st_environ s2))); tauto.
Qed.

Lemma load_depends_only_on_flag_variable_witness :
  ∃ ns' out,
    exec_module ∅ Sample.started = (Returned ns', emit_events out Sample.started) ∧
    exec_module ∅ Malformed.other_env
      = (Returned ns', emit_events out Malformed.other_env).
Proof.
  apply (load_depends_only_on_flag_variable ∅ Sample.started Malformed.other_env).
  reflexivity.
Defined.

(** X9: executing the module body binds no name but [os], [sys], [pytest]
    and the two hook names: every other name of the namespace it runs in is
    afterwards bound, or unbound, as before. *)
Theorem exec_module_binds_only_its_names ns s name :
  name ∉ module_names →
  ∃ ns' s', exec_module ns s = (Returned ns', s') ∧ ns' !! name = ns !! name.
Proof.
  intros Hname. rewrite exec_module_run. eexists _, _. split; [reflexivity|].
  unfold module_names in Hname. set_unfold.
  destruct (decide (flag_active (st_environ s)));
    unfold with_hooks, with_imports; rewrite !lookup_insert;
    repeat case_decide; subst; tauto.
Qed.

Lemma exec_module_binds_only_its_names_witness :
  ∃ ns' s',
    exec_module {["conftest" := BModule "conftest"]} Sample.started
      = (Returned ns', s') ∧
    ns' !! "conftest"
      = ({["conftest" := BModule "conftest"]} : gmap string binding) !! "conftest".
Proof.
  apply (exec_module_binds_only_its_names
           {["conftest" := BModule "conftest"]} Sample.started "conftest").
  apply (bool_decide_unpack _). vm_compute. exact I.
Defined.
